(** * Intent detection and canned sales responses of the speech analyzer

    A shallow embedding of [code/app.py] and [code/sentiment analysis.py]:
    the keyword classifier [detect_intent] of both scripts, the response
    table [ai_sales_response] of [app.py], the top-level analysis run of
    each script as a program over a log of collaborator calls, and the
    audio widgets and [record_audio] that feed it. *)

From Stdlib Require Import List NArith ZArith Bool String Ascii Lia.
Import ListNotations.

(** ** Python strings

    A Python [str] is a sequence of Unicode code points.  String literals of
    the scripts that are plain ASCII are written with [lit]; the two
    non-ASCII characters that occur in literals are spliced in by code
    point. *)
Module PyStr.

Definition str := list N.

(** An ASCII literal, one code point per character. *)
Definition lit (s : string) : str :=
  map N_of_ascii (list_ascii_of_string s).

(** U+2019 RIGHT SINGLE QUOTATION MARK and U+2014 EM DASH. *)
Definition rsquo : N := 8217%N.
Definition mdash : N := 8212%N.
(** U+0027 APOSTROPHE. *)
Definition apos : N := 39%N.

(** [a == b] on strings. *)
Fixpoint eqb (a b : str) : bool :=
  match a, b with
  | [], [] => true
  | x :: a', y :: b' => N.eqb x y && eqb a' b'
  | _, _ => false
  end.

(** [t.startswith(x)]. *)
Fixpoint startswith (x t : str) : bool :=
  match x, t with
  | [], _ => true
  | _ :: _, [] => false
  | a :: x', b :: t' => N.eqb a b && startswith x' t'
  end.

(** [x in t]: [x] occurs in [t] as a contiguous substring. *)
Fixpoint contains (x t : str) : bool :=
  startswith x t ||
  match t with
  | [] => false
  | _ :: t' => contains x t'
  end.

(** [any(x in t for x in xs)]. *)
Definition any_in (xs : list str) (t : str) : bool :=
  existsb (fun x => contains x t) xs.

(** [s.isascii()]. *)
Definition isascii (s : str) : bool := forallb (fun c => N.ltb c 128) s.

(** [str.lower] on an ASCII string: CPython maps 'A'..'Z' to 'a'..'z' and
    leaves every other ASCII character alone. *)
Definition ascii_lower_char (c : N) : N :=
  if N.leb 65 c && N.leb c 90 then (c + 32)%N else c.

Definition ascii_lower (s : str) : str := map ascii_lower_char s.

(** [str.isspace] on one character: the code points CPython treats as
    whitespace. *)
Definition isspace (c : N) : bool :=
  (N.leb 9 c && N.leb c 13) || (N.leb 28 c && N.leb c 32) ||
  N.eqb c 133 || N.eqb c 160 || N.eqb c 5760 ||
  (N.leb 8192 c && N.leb c 8202) ||
  N.eqb c 8232 || N.eqb c 8233 || N.eqb c 8239 || N.eqb c 8287 ||
  N.eqb c 12288.

(** [s.lstrip()], [s.rstrip()] and [s.strip()] without argument. *)
Fixpoint lstrip (s : str) : str :=
  match s with
  | c :: s' => if isspace c then lstrip s' else s
  | [] => []
  end.

Definition rstrip (s : str) : str := rev (lstrip (rev s)).

Definition strip (s : str) : str := rstrip (lstrip s).

(** Truthiness of a string: [bool(s)]. *)
Definition truthy (s : str) : bool :=
  match s with [] => false | _ :: _ => true end.

End PyStr.

Import PyStr.

(** ** [code/app.py] *)
Module App.

Section WithLower.

(** [str.lower] of the Python runtime.  Its Unicode tables are not part of
    the scripts, so the classifier takes it as a parameter. *)
Variable lower : str -> str.

Definition detect_intent (text : str) : str :=
  let t := lower text in
  if any_in (map lit ["buy"; "purchase"; "interested"; "get a new"]%string) t
  then lit "Purchase Interest"
  else
  if any_in (map lit ["price"; "cost"; "how much"; "expensive"]%string) t
  then lit "Ask for Price"
  else
  if any_in (map lit ["not working"; "issue"; "problem"; "complaint"]%string) t
  then lit "Complaint"
  else
  if any_in (map lit ["compare"; "specs"; "camera"; "battery"]%string) t
  then lit "Product Comparison"
  else
  if any_in (map lit ["offer"; "discount"; "deal"]%string) t
  then lit "Ask for Offers"
  else lit "General".

End WithLower.

(** A dict literal with string keys, in insertion order. *)
Definition dict := list (str * str).

(** [d[k]]: [None] stands for [KeyError]. *)
Fixpoint dict_get (d : dict) (k : str) : option str :=
  match d with
  | [] => None
  | (k', v) :: d' => if eqb k' k then Some v else dict_get d' k
  end.

Definition ai_sales_response (intent sentiment : str) : dict :=
  if eqb intent (lit "Purchase Interest") then
    [ (lit "next_question",
       lit "Would you like to know the available models or pricing?");
      (lit "soft_handling",
       lit "Great! Let me help you choose the best option.");
      (lit "recommendation",
       lit "Our latest model offers excellent value for buyers.") ]
  else if eqb intent (lit "Ask for Price") then
    [ (lit "next_question",
       lit "Do you have any budget range in mind?");
      (lit "soft_handling",
       lit "I" ++ rsquo :: lit "ll help you find the best model in your range.");
      (lit "recommendation",
       lit "We have offers and EMI options you might like.") ]
  else if eqb intent (lit "Complaint") then
    [ (lit "next_question",
       lit "Could you explain the issue you're facing?");
      (lit "soft_handling",
       lit "I truly apologize for the inconvenience.");
      (lit "recommendation",
       lit "We can quickly guide you through a solution.") ]
  else if eqb sentiment (lit "NEGATIVE") then
    [ (lit "next_question",
       lit "What would you like us to improve?");
      (lit "soft_handling",
       lit "I understand your concern " ++ mdash :: lit " I'm here to help.");
      (lit "recommendation",
       lit "We can offer alternatives that better fit your needs.") ]
  else
    [ (lit "next_question",
       lit "How can I assist you further?");
      (lit "soft_handling",
       lit "I'm right here to help.");
      (lit "recommendation",
       lit "Let me know your preference and I" ++ rsquo ::
       lit "ll recommend the best option.") ].

End App.

(** ** [code/sentiment analysis.py] *)
Module SentimentAnalysis.

Section WithLower.

Variable lower : str -> str.

Definition detect_intent (text : str) : str :=
  let t := lower text in
  if any_in (map lit ["buy"; "purchase"; "interested"; "get a new"]%string) t
  then lit "Purchase Interest"
  else
  if any_in (map lit ["price"; "cost"; "how much"; "expensive"]%string) t
  then lit "Ask for price"
  else
  if any_in (map lit ["not working"; "issue"; "problem"; "complaint"]%string) t
  then lit "Complaint"
  else
  if any_in (map lit ["compare"; "specs"; "camera"; "battery"]%string) t
  then lit "Compare Product"
  else
  if any_in (map lit ["offer"; "discount"; "deal"]%string) t
  then lit "Ask for offers"
  else lit "General".

End WithLower.

End SentimentAnalysis.


(** ** The analysis runs

    Both scripts end in a straight-line analysis of one recording.  The
    external models are collaborators; a run is a program that appends to a
    log each collaborator call and each value handed to the page.  Static
    captions are left out of the log. *)
Module Pipeline.

Section Run.

Variable lower : str -> str.

(** Confidence scores are floats that the scripts only pass through
    [round(float(score), 2)]. *)
Variable Score : Type.
Variable round2 : Score -> Score.

Record Collaborators := {
  (** [whisper_model.transcribe(wav_path, language="en")], seen through
      [result.get("text", ...)]: [None] when the key is absent. *)
  transcribe : str -> option str;
  (** [sentiment_model(text)]: a list of label/score results. *)
  sentiment_model : str -> list (str * Score);
  (** [ner_model(text).ents] as pairs of [ent.text] and [ent.label_]. *)
  ner_model : str -> list (str * str)
}.

Inductive event :=
| CallTranscribe (wav_path : str)
| CallSentiment (text : str)
| CallNer (text : str)
| ShowText (text : str)
| ShowSentiment (label : str) (score : Score)
| ShowIntent (intent : str)
| ShowEntities (entities : list (str * str))
| ShowAI (next_question soft_handling recommendation : str).

Inductive exn := IndexError | KeyError.

(** Computations that may raise and that extend the log. *)
Definition M (A : Type) : Type := list event -> (A + exn) * list event.

Definition ret {A} (a : A) : M A := fun log => (inl a, log).

Definition raise {A} (e : exn) : M A := fun log => (inr e, log).

Definition bind {A B} (m : M A) (k : A -> M B) : M B :=
  fun log =>
    match m log with
    | (inl a, log') => k a log'
    | (inr e, log') => (inr e, log')
    end.

Definition emit (e : event) : M unit := fun log => (inl tt, log ++ [e]).

Notation "x <- m ;; k" := (bind m (fun x => k))
  (at level 61, m at next level, right associativity).
Notation "m ;;; k" := (bind m (fun _ => k))
  (at level 61, right associativity).

Variable c : Collaborators.

Definition call_transcribe (wav_path : str) : M (option str) :=
  emit (CallTranscribe wav_path) ;;; ret (transcribe c wav_path).

Definition call_sentiment (text : str) : M (list (str * Score)) :=
  emit (CallSentiment text) ;;; ret (sentiment_model c text).

Definition call_ner (text : str) : M (list (str * str)) :=
  emit (CallNer text) ;;; ret (ner_model c text).

(** [l[0]]. *)
Definition first {A} (l : list A) : M A :=
  match l with
  | x :: _ => ret x
  | [] => raise IndexError
  end.

(** [d[k]]. *)
Definition getitem (d : App.dict) (k : str) : M str :=
  match App.dict_get d k with
  | Some v => ret v
  | None => raise KeyError
  end.

(** [result.get("text", "")]. *)
Definition get_text (result : option str) : str :=
  match result with
  | Some s => s
  | None => []
  end.

(** [app.py], from [if wav_path:] on; [wav_path] is [None] or a file name. *)
Definition run_app (wav_path : option str) : M unit :=
  match wav_path with
  | None => ret tt
  | Some path =>
    if truthy path then
      result <- call_transcribe path ;;
      let text := strip (get_text result) in
      emit (ShowText text) ;;;
      res <- call_sentiment text ;;
      sent <- first res ;;
      let sentiment_label := fst sent in
      let sentiment_score := round2 (snd sent) in
      emit (ShowSentiment sentiment_label sentiment_score) ;;;
      let intent := App.detect_intent lower text in
      emit (ShowIntent intent) ;;;
      entities <- call_ner text ;;
      emit (ShowEntities entities) ;;;
      let ai := App.ai_sales_response intent sentiment_label in
      q <- getitem ai (lit "next_question") ;;
      s <- getitem ai (lit "soft_handling") ;;
      r <- getitem ai (lit "recommendation") ;;
      emit (ShowAI q s r)
    else ret tt
  end.

(** [sentiment analysis.py], the body of [if st.button(...)]; [wav_path] is
    the file name [record_audio] returned. *)
Definition run_sentiment_analysis (button : bool) (wav_path : str) : M unit :=
  if button then
    result <- call_transcribe wav_path ;;
    let text := strip (get_text result) in
    emit (ShowText text) ;;;
    res <- call_sentiment text ;;
    sent <- first res ;;
    let sentiment_label := fst sent in
    let sentiment_score := round2 (snd sent) in
    emit (ShowSentiment sentiment_label sentiment_score) ;;;
    let intent := SentimentAnalysis.detect_intent lower text in
    emit (ShowIntent intent) ;;;
    entities <- call_ner text ;;
    emit (ShowEntities entities)
  else ret tt.

(** The collaborator calls of a log, in order. *)
Definition is_call (e : event) : bool :=
  match e with
  | CallTranscribe _ | CallSentiment _ | CallNer _ => true
  | _ => false
  end.

Definition calls (log : list event) : list event := filter is_call log.

(** The log of a run started on an empty log. *)
Definition log_of {A} (m : M A) : list event := snd (m []).

End Run.

Arguments transcribe {Score} _ _.
Arguments sentiment_model {Score} _ _.
Arguments ner_model {Score} _ _.
Arguments CallTranscribe {Score} _.
Arguments CallSentiment {Score} _.
Arguments CallNer {Score} _.
Arguments ShowText {Score} _.
Arguments ShowSentiment {Score} _ _.
Arguments ShowIntent {Score} _.
Arguments ShowEntities {Score} _.
Arguments ShowAI {Score} _ _ _.
Arguments getitem {Score} _ _ _.
Arguments run_app _ {Score} _ _ _ _.
Arguments run_sentiment_analysis _ {Score} _ _ _ _ _.
Arguments calls {Score} _.
Arguments log_of {Score A} _.

End Pipeline.

(** ** The tables of the specification *)
Module Spec.

(** The six intent labels of the data model. *)
Definition intents : list str :=
  map lit ["Purchase Interest"; "Ask for Price"; "Complaint";
           "Product Comparison"; "Ask for Offers"; "General"]%string.

(** The ordered rule table of the intent classifier. *)
Definition rule_table : list (list str * str) :=
  [ (map lit ["buy"; "purchase"; "interested"; "get a new"]%string,
     lit "Purchase Interest");
    (map lit ["price"; "cost"; "how much"; "expensive"]%string,
     lit "Ask for Price");
    (map lit ["not working"; "issue"; "problem"; "complaint"]%string,
     lit "Complaint");
    (map lit ["compare"; "specs"; "camera"; "battery"]%string,
     lit "Product Comparison");
    (map lit ["offer"; "discount"; "deal"]%string,
     lit "Ask for Offers") ].

(** First match wins over [rule_table]; [General] when no rule matches. *)
Definition classify_intent (lower : str -> str) (text : str) : str :=
  match find (fun r => any_in (fst r) (lower text)) rule_table with
  | Some r => snd r
  | None => lit "General"
  end.

(** Every keyword of the rule table. *)
Definition keywords : list str := flat_map fst rule_table.

(** The response strings as the specification lists them, every apostrophe
    being U+0027. *)
Definition generate_response (intent sentiment : str) : App.dict :=
  if eqb intent (lit "Purchase Interest") then
    [ (lit "next_question",
       lit "Would you like to know the available models or pricing?");
      (lit "soft_handling",
       lit "Great! Let me help you choose the best option.");
      (lit "recommendation",
       lit "Our latest model offers excellent value for buyers.") ]
  else if eqb intent (lit "Ask for Price") then
    [ (lit "next_question",
       lit "Do you have any budget range in mind?");
      (lit "soft_handling",
       lit "I'll help you find the best model in your range.");
      (lit "recommendation",
       lit "We have offers and EMI options you might like.") ]
  else if eqb intent (lit "Complaint") then
    [ (lit "next_question",
       lit "Could you explain the issue you're facing?");
      (lit "soft_handling",
       lit "I truly apologize for the inconvenience.");
      (lit "recommendation",
       lit "We can quickly guide you through a solution.") ]
  else if eqb sentiment (lit "NEGATIVE") then
    [ (lit "next_question",
       lit "What would you like us to improve?");
      (lit "soft_handling",
       lit "I understand your concern " ++ mdash :: lit " I'm here to help.");
      (lit "recommendation",
       lit "We can offer alternatives that better fit your needs.") ]
  else
    [ (lit "next_question",
       lit "How can I assist you further?");
      (lit "soft_handling",
       lit "I'm right here to help.");
      (lit "recommendation",
       lit "Let me know your preference and I'll recommend the best option.") ].

(** Rewrites the apostrophe of every [I'll] to U+2019 and leaves all other
    characters, other apostrophes included, as they are; [prev] is the
    character before [s]. *)
Fixpoint curl_from (prev : option N) (s : str) : str :=
  match s with
  | [] => []
  | ch :: s' =>
    (if N.eqb ch apos
        && match prev with Some p => N.eqb p 73 | None => false end
        && startswith (lit "ll") s'
     then rsquo else ch) :: curl_from (Some ch) s'
  end.

Definition curl (s : str) : str := curl_from None s.

(** The label set of the duplicate classifier in [sentiment analysis.py]. *)
Definition intents_duplicate : list str :=
  map lit ["Purchase Interest"; "Ask for price"; "Complaint";
           "Compare Product"; "Ask for offers"; "General"]%string.

(** The renaming that turns a label of [app.py] into the label of
    [sentiment analysis.py] for the same rule. *)
Definition relabel (l : str) : str :=
  if eqb l (lit "Ask for Price") then lit "Ask for price"
  else if eqb l (lit "Product Comparison") then lit "Compare Product"
  else if eqb l (lit "Ask for Offers") then lit "Ask for offers"
  else l.

End Spec.


(** The rule that fires: the number (1 to 5) of the first row of the rule
    table with a keyword in the lowercased text, [0] when there is none. *)
Module Fired.

Fixpoint first_index {A} (p : A -> bool) (l : list A) (i : nat) : nat :=
  match l with
  | [] => 0
  | x :: l' => if p x then i else first_index p l' (S i)
  end.

Definition fired_rule (lower : str -> str) (text : str) : nat :=
  first_index (fun r => any_in (fst r) (lower text)) Spec.rule_table 1.

(** The label each script returns from the branch of rule [i]. *)
Definition label_app (i : nat) : str :=
  match i with
  | 1 => lit "Purchase Interest"
  | 2 => lit "Ask for Price"
  | 3 => lit "Complaint"
  | 4 => lit "Product Comparison"
  | 5 => lit "Ask for Offers"
  | _ => lit "General"
  end.

Definition label_duplicate (i : nat) : str :=
  match i with
  | 1 => lit "Purchase Interest"
  | 2 => lit "Ask for price"
  | 3 => lit "Complaint"
  | 4 => lit "Compare Product"
  | 5 => lit "Ask for offers"
  | _ => lit "General"
  end.

End Fired.

(** The five response triples of [ai_sales_response], by name. *)
Module Triples.

Definition triple (q s r : str) : App.dict :=
  [ (lit "next_question", q); (lit "soft_handling", s);
    (lit "recommendation", r) ].

Definition purchase : App.dict :=
  triple (lit "Would you like to know the available models or pricing?")
         (lit "Great! Let me help you choose the best option.")
         (lit "Our latest model offers excellent value for buyers.").

Definition ask_price : App.dict :=
  triple (lit "Do you have any budget range in mind?")
         (lit "I" ++ rsquo ::
          lit "ll help you find the best model in your range.")
         (lit "We have offers and EMI options you might like.").

Definition complaint : App.dict :=
  triple (lit "Could you explain the issue you're facing?")
         (lit "I truly apologize for the inconvenience.")
         (lit "We can quickly guide you through a solution.").

Definition negative : App.dict :=
  triple (lit "What would you like us to improve?")
         (lit "I understand your concern " ++ mdash ::
          lit " I'm here to help.")
         (lit "We can offer alternatives that better fit your needs.").

Definition default : App.dict :=
  triple (lit "How can I assist you further?")
         (lit "I'm right here to help.")
         (lit "Let me know your preference and I" ++ rsquo ::
          lit "ll recommend the best option.").

End Triples.

(** Collaborators for a silent recording: the transcript is empty, the
    sentiment model answers with one result, the entity model finds
    nothing.  Scores are given in hundredths. *)
Definition silent : Pipeline.Collaborators N :=
  {| Pipeline.transcribe := fun _ => Some [];
     Pipeline.sentiment_model := fun _ => [(lit "POSITIVE", 75%N)];
     Pipeline.ner_model := fun _ => [] |}.

(** ** The scripts from the audio widgets on

    One run of a script: the values the widgets return are its input, the
    sound device and the temporary file are its environment, and the run
    logs what it records, writes and plays before the analysis. *)
Module Main.

Section Script.

Variable lower : str -> str.
Variable Score : Type.
Variable round2 : Score -> Score.
Variable c : Pipeline.Collaborators Score.

(** Sample buffers of the sound device. *)
Variable Recording : Type.

Record Environment := {
  (** [sd.rec(frames, samplerate=..., channels=..., dtype="int16")]. *)
  sd_rec : Z -> Z -> Z -> Recording;
  (** [tmp.name] of the [NamedTemporaryFile] the run creates. *)
  tmp_name : str
}.

Variable env : Environment.

Inductive event :=
| SdRec (frames samplerate channels : Z)
| WavfileWrite (name : str) (rate : Z) (data : Recording)
| TmpWrite (name : str) (data : list N)
| Audio (path : str)
| Analysis (e : Pipeline.event Score).

(** [record_audio(seconds, fs)]; [seconds] is an integer, so
    [int(seconds * fs)] is the product. *)
Definition record_audio (seconds fs : Z) : str * list event :=
  let recording := sd_rec env (seconds * fs) fs 1 in
  (tmp_name env,
   [SdRec (seconds * fs) fs 1; WavfileWrite (tmp_name env) fs recording]).

(** The default [fs=44100] of [record_audio]. *)
Definition fs_default : Z := 44100.

(** The two options of [st.radio]. *)
Inductive source := RecordLive | UploadAudioFile.

Definition is_record (s : source) : bool :=
  match s with RecordLive => true | UploadAudioFile => false end.

Definition is_upload (s : source) : bool :=
  match s with RecordLive => false | UploadAudioFile => true end.

(** What the widgets of [app.py] return in one run; [uploaded] is [None]
    when no file is in the uploader, else the bytes of the file. *)
Record Widgets := {
  input_choice : source;
  record_seconds : Z;
  start_recording : bool;
  uploaded : option (list N)
}.

(** [app.py], from [wav_path = None] to the end of option B. *)
Definition audio_input (w : Widgets) : option str * list event :=
  let s0 : option str * list event := (None, []) in
  let s1 :=
    if is_record (input_choice w) then
      if start_recording w then
        let '(path, log) := record_audio (record_seconds w) fs_default in
        (Some path, log ++ [Audio path])
      else s0
    else s0 in
  if is_upload (input_choice w) then
    match uploaded w with
    | Some data =>
      (Some (tmp_name env),
       snd s1 ++ [TmpWrite (tmp_name env) data; Audio (tmp_name env)])
    | None => s1
    end
  else s1.

(** One run of [app.py]. *)
Definition app_main (w : Widgets)
  : (unit + Pipeline.exn) * list event :=
  let '(wav_path, log) := audio_input w in
  let '(r, alog) := Pipeline.run_app lower round2 c wav_path [] in
  (r, log ++ map Analysis alog).

(** One run of [sentiment analysis.py]: the value of the number input and
    whether the button was pressed. *)
Definition sentiment_analysis_main (record_seconds : Z) (button : bool)
  : (unit + Pipeline.exn) * list event :=
  if button then
    let '(wav_path, log) := record_audio record_seconds fs_default in
    let '(r, alog) :=
      Pipeline.run_sentiment_analysis lower round2 c true wav_path [] in
    (r, log ++ [Audio wav_path] ++ map Analysis alog)
  else (inl tt, []).

End Script.

Arguments sd_rec {Recording} _ _ _ _.
Arguments tmp_name {Recording} _.
Arguments SdRec {Score Recording} _ _ _.
Arguments WavfileWrite {Score Recording} _ _ _.
Arguments TmpWrite {Score Recording} _ _.
Arguments Audio {Score Recording} _.
Arguments Analysis {Score Recording} _.
Arguments record_audio {Score Recording} _ _ _.
Arguments audio_input {Score Recording} _ _.
Arguments app_main _ {Score} _ _ {Recording} _ _.
Arguments sentiment_analysis_main _ {Score} _ _ {Recording} _ _ _.

End Main.

(** A sound device that returns the number of frames as its buffer, and a
    temporary file called tmp.wav. *)
Definition bench : Main.Environment Z :=
  {| Main.sd_rec := fun frames _ _ => frames;
     Main.tmp_name := lit "tmp.wav" |}.

(** Collaborators for a recording with speech: the transcript comes with
    blanks around it, the sentiment model answers with two results. *)
Definition spoken : Pipeline.Collaborators N :=
  {| Pipeline.transcribe :=
       fun _ => Some (lit "  The Battery is not working. ");
     Pipeline.sentiment_model :=
       fun _ => [(lit "NEGATIVE", 98%N); (lit "POSITIVE", 2%N)];
     Pipeline.ner_model := fun _ => [] |}.

(** Collaborators whose sentiment model answers with no result. *)
Definition speechless : Pipeline.Collaborators N :=
  {| Pipeline.transcribe := fun _ => None;
     Pipeline.sentiment_model := fun _ => [];
     Pipeline.ner_model := fun _ => [] |}.

(** The intents a log shows, in order. *)
Definition shown_intents {Score : Type} (log : list (Pipeline.event Score))
  : list str :=
  flat_map (fun e => match e with
                     | Pipeline.ShowIntent intent => [intent]
                     | _ => []
                     end) log.

(** Unfolds the monad of a run down to its log. *)
Ltac run_steps :=
  cbv beta iota zeta
      delta [Pipeline.bind Pipeline.ret Pipeline.emit Pipeline.raise
             Pipeline.first Pipeline.call_transcribe Pipeline.call_sentiment
             Pipeline.call_ner Pipeline.log_of fst snd].

(** ** Facts about strings *)

Lemma eqb_eq (a b : str) : eqb a b = true <-> a = b.
Proof.
  revert b; induction a as [|x a IH]; intros [|y b]; simpl;
    try (split; [discriminate | discriminate]); try tauto.
  rewrite andb_true_iff, N.eqb_eq, IH.
  split; [intros [-> ->]; reflexivity | intros H; inversion H; auto].
Qed.

Lemma eqb_refl (a : str) : eqb a a = true.
Proof. apply eqb_eq; reflexivity. Qed.

Lemma eqb_neq (a b : str) : eqb a b = false <-> a <> b.
Proof.
  rewrite <- eqb_eq. destruct (eqb a b); split; congruence.
Qed.

(** [startswith] and [contains] decide the prefix and substring relations. *)
Lemma startswith_iff (x t : str) :
  startswith x t = true <-> exists post, t = x ++ post.
Proof.
  revert t; induction x as [|a x IH]; intros t; simpl.
  - split; [intros _; exists t; reflexivity | reflexivity].
  - destruct t as [|b t].
    + split; [discriminate | intros [post H]; discriminate].
    + rewrite andb_true_iff, N.eqb_eq, IH. split.
      * intros [-> [post ->]]. exists post; reflexivity.
      * intros [post H]. inversion H; subst. split; [reflexivity | eauto].
Qed.

Lemma contains_iff (x t : str) :
  contains x t = true <-> exists pre post, t = pre ++ x ++ post.
Proof.
  induction t as [|b t IH].
  - simpl. rewrite orb_false_r, startswith_iff. split.
    + intros [post H]. exists [], post. assumption.
    + intros [pre [post H]]. destruct pre as [|p pre]; [|discriminate].
      exists post. assumption.
  - change (contains x (b :: t))
      with (startswith x (b :: t) || contains x t).
    rewrite orb_true_iff, startswith_iff, IH. split.
    + intros [[post H] | [pre [post H]]].
      * exists [], post. assumption.
      * exists (b :: pre), post. rewrite H. reflexivity.
    + intros [pre [post H]]. destruct pre as [|p pre].
      * left. exists post. assumption.
      * right. inversion H; subst. exists pre, post. reflexivity.
Qed.

Lemma ascii_lower_char_idem (c : N) :
  ascii_lower_char (ascii_lower_char c) = ascii_lower_char c.
Proof.
  unfold ascii_lower_char.
  destruct (N.leb 65 c && N.leb c 90) eqn:E.
  - apply andb_true_iff in E. destruct E as [E _]. apply N.leb_le in E.
    replace (N.leb (c + 32) 90) with false
      by (symmetry; apply N.leb_gt; lia).
    rewrite andb_false_r. reflexivity.
  - rewrite E. reflexivity.
Qed.

Lemma ascii_lower_idem (s : str) : ascii_lower (ascii_lower s) = ascii_lower s.
Proof.
  unfold ascii_lower. rewrite map_map.
  apply map_ext. intros ch. apply ascii_lower_char_idem.
Qed.

(** ** The intent classifier *)

Section Classifier.

Variable lower : str -> str.

(** Both scripts return the label of the rule that fires. *)
Lemma app_detect_intent_fired (text : str) :
  App.detect_intent lower text = Fired.label_app (Fired.fired_rule lower text).
Proof.
  unfold App.detect_intent, Fired.fired_rule, Spec.rule_table. cbn -[any_in lit].
  repeat (destruct (any_in _ (lower text)); [reflexivity|]). reflexivity.
Qed.

Lemma duplicate_detect_intent_fired (text : str) :
  SentimentAnalysis.detect_intent lower text =
  Fired.label_duplicate (Fired.fired_rule lower text).
Proof.
  unfold SentimentAnalysis.detect_intent, Fired.fired_rule, Spec.rule_table.
  cbn -[any_in lit].
  repeat (destruct (any_in _ (lower text)); [reflexivity|]). reflexivity.
Qed.

Lemma fired_rule_range (text : str) : Fired.fired_rule lower text <= 5.
Proof.
  unfold Fired.fired_rule, Spec.rule_table. cbn -[any_in lit].
  repeat (destruct (any_in _ (lower text)); [lia|]). lia.
Qed.

End Classifier.

(** *** Helper facts on first-match search *)

Lemma find_first_match {A} (p : A -> bool) (l : list A) (i : nat) (x : A) :
  nth_error l i = Some x ->
  p x = true ->
  (forall j y, j < i -> nth_error l j = Some y -> p y = false) ->
  find p l = Some x.
Proof.
  revert i; induction l as [|a l IH]; intros i Hnth Hp Hbefore.
  - destruct i; discriminate.
  - destruct i as [|i]; simpl in *.
    + inversion Hnth; subst. rewrite Hp. reflexivity.
    + rewrite (Hbefore 0 a) by (simpl; auto; lia).
      apply (IH i); auto.
      intros j y Hj Hy. apply (Hbefore (S j) y); [lia | exact Hy].
Qed.

Lemma any_in_true (kws : list str) (t kw : str) :
  In kw kws -> contains kw t = true -> any_in kws t = true.
Proof.
  intros Hin Hc. unfold any_in. apply existsb_exists. exists kw. auto.
Qed.

Lemma any_in_false (kws : list str) (t : str) :
  (forall kw, In kw kws -> contains kw t = false) -> any_in kws t = false.
Proof.
  intros H. unfold any_in. destruct (existsb _ kws) eqn:E; [|reflexivity].
  apply existsb_exists in E. destruct E as [kw [Hin Hc]].
  rewrite (H kw Hin) in Hc. discriminate.
Qed.

Lemma app_detect_intent_classify (lower : str -> str) (text : str) :
  App.detect_intent lower text = Spec.classify_intent lower text.
Proof.
  unfold App.detect_intent, Spec.classify_intent, Spec.rule_table.
  cbn -[any_in lit].
  repeat (destruct (any_in _ (lower text)); [reflexivity|]). reflexivity.
Qed.

(** *** Claims on the classifier *)

(** C1 (as amended): [detect_intent] of [app.py] is total and returns one of
    the six fixed labels; [detect_intent] of [sentiment analysis.py] is total
    and returns one of its own six labels, three of which are spelled
    differently. *)
Theorem C1_detect_intent_labels (lower : str -> str) (text : str) :
  In (App.detect_intent lower text) Spec.intents /\
  In (SentimentAnalysis.detect_intent lower text) Spec.intents_duplicate.
Proof.
  rewrite app_detect_intent_fired, duplicate_detect_intent_fired.
  pose proof (fired_rule_range lower text) as Hr.
  destruct (Fired.fired_rule lower text) as [|[|[|[|[|[|n]]]]]];
    try lia; split; simpl; auto 10.
Qed.

(** C1, counterexample: on a question about the price the classifier of
    [sentiment analysis.py] returns a label outside the six fixed ones. *)
Lemma C1_duplicate_label_outside :
  SentimentAnalysis.detect_intent ascii_lower (lit "What is the price?")
    = lit "Ask for price" /\
  ~ In (SentimentAnalysis.detect_intent ascii_lower (lit "What is the price?"))
       Spec.intents.
Proof.
  split; [reflexivity|].
  vm_compute. intros H.
  repeat (destruct H as [H|H]; [discriminate H|]). exact H.
Qed.

(** C2: the five keyword sets are tried in the order of the rule table and
    the first match wins: the result is the label of the lowest-numbered
    matching rule; a text with a rule-1 and a rule-2 keyword is a Purchase
    Interest; the camera transcript is a Complaint although rule 4 matches
    as well. *)
Theorem C2_first_match_wins (lower : str -> str)
  (Hascii : forall s, isascii s = true -> lower s = ascii_lower s) :
  (forall text, App.detect_intent lower text = Spec.classify_intent lower text)
  /\
  (forall text i kws label,
     nth_error Spec.rule_table i = Some (kws, label) ->
     any_in kws (lower text) = true ->
     (forall j r, j < i -> nth_error Spec.rule_table j = Some r ->
                  any_in (fst r) (lower text) = false) ->
     App.detect_intent lower text = label)
  /\
  (forall text k1 k2,
     In k1 (map lit ["buy"; "purchase"; "interested"; "get a new"]%string) ->
     In k2 (map lit ["price"; "cost"; "how much"; "expensive"]%string) ->
     contains k1 (lower text) = true ->
     contains k2 (lower text) = true ->
     App.detect_intent lower text = lit "Purchase Interest")
  /\
  (let t := lit "The camera on this model is not working, it's a real problem"
   in contains (lit "camera") (lower t) = true /\
      contains (lit "not working") (lower t) = true /\
      App.detect_intent lower t = lit "Complaint").
Proof.
  split; [|split; [|split]].
  - apply app_detect_intent_classify.
  - intros text i kws label Hnth Hmatch Hbefore.
    rewrite app_detect_intent_classify. unfold Spec.classify_intent.
    rewrite (find_first_match
               (fun r => any_in (fst r) (lower text)) Spec.rule_table
               i (kws, label)); auto.
  - intros text k1 k2 H1 _ Hc1 _.
    unfold App.detect_intent. cbn zeta.
    rewrite (any_in_true _ _ _ H1 Hc1). reflexivity.
  - cbn zeta. unfold App.detect_intent.
    rewrite Hascii by reflexivity.
    repeat split; vm_compute; reflexivity.
Qed.

Lemma C2_first_match_wins_witness :
  (forall s, isascii s = true -> ascii_lower s = ascii_lower s) /\
  App.detect_intent ascii_lower (lit "I want to buy, what's the price?")
    = lit "Purchase Interest".
Proof.
  split; [reflexivity|].
  apply (proj1 (proj2 (proj2
           (C2_first_match_wins ascii_lower (fun s _ => eq_refl)))))
    with (k1 := lit "buy") (k2 := lit "price").
  - simpl. auto.
  - simpl. auto.
  - reflexivity.
  - reflexivity.
Defined.

(** C6: a text whose lowercased form contains no keyword of the five rule
    sets is classified General; so are the empty string and the weather
    sentence. *)
Theorem C6_no_keyword_general (lower : str -> str)
  (Hascii : forall s, isascii s = true -> lower s = ascii_lower s) :
  (forall text,
     (forall kw, In kw Spec.keywords -> contains kw (lower text) = false) ->
     App.detect_intent lower text = lit "General")
  /\ App.detect_intent lower [] = lit "General"
  /\ App.detect_intent lower (lit "The weather is nice today.") = lit "General".
Proof.
  split; [|split].
  - intros text Hnone.
    assert (Hrule : forall r, In r Spec.rule_table ->
                              any_in (fst r) (lower text) = false).
    { intros r Hr. apply any_in_false. intros kw Hkw.
      apply Hnone. unfold Spec.keywords. apply in_flat_map.
      exists r. split; assumption. }
    rewrite app_detect_intent_classify. unfold Spec.classify_intent.
    destruct (find _ Spec.rule_table) as [r|] eqn:E; [|reflexivity].
    apply find_some in E. destruct E as [Hin Hr].
    rewrite (Hrule r Hin) in Hr. discriminate.
  - unfold App.detect_intent. rewrite Hascii by reflexivity. reflexivity.
  - unfold App.detect_intent. rewrite Hascii by reflexivity.
    vm_compute. reflexivity.
Qed.

Lemma C6_no_keyword_general_witness :
  (forall s, isascii s = true -> ascii_lower s = ascii_lower s) /\
  App.detect_intent ascii_lower [] = lit "General".
Proof.
  split; [reflexivity|].
  exact (proj1 (proj2 (C6_no_keyword_general ascii_lower (fun s _ => eq_refl)))).
Defined.

(** C7: classification is case-insensitive: a text and its lowercased form
    get the same label, as do "BUY this phone" and "buy this phone". *)
Theorem C7_case_insensitive (lower : str -> str)
  (Hidem : forall s, lower (lower s) = lower s)
  (Hascii : forall s, isascii s = true -> lower s = ascii_lower s) :
  (forall text,
     App.detect_intent lower text = App.detect_intent lower (lower text))
  /\ App.detect_intent lower (lit "BUY this phone")
     = App.detect_intent lower (lit "buy this phone")
  /\ App.detect_intent lower (lit "BUY this phone") = lit "Purchase Interest".
Proof.
  split; [|split].
  - intros text. unfold App.detect_intent. cbn zeta.
    rewrite Hidem. reflexivity.
  - unfold App.detect_intent. rewrite !Hascii by reflexivity.
    vm_compute. reflexivity.
  - unfold App.detect_intent. rewrite Hascii by reflexivity.
    vm_compute. reflexivity.
Qed.

Lemma C7_case_insensitive_witness :
  (forall s, ascii_lower (ascii_lower s) = ascii_lower s) /\
  (forall s, isascii s = true -> ascii_lower s = ascii_lower s) /\
  App.detect_intent ascii_lower (lit "Not Working")
    = App.detect_intent ascii_lower (ascii_lower (lit "Not Working")).
Proof.
  split; [exact ascii_lower_idem|]. split; [reflexivity|].
  exact (proj1 (C7_case_insensitive ascii_lower ascii_lower_idem
                  (fun s _ => eq_refl)) (lit "Not Working")).
Defined.

(** C9: on every text the two scripts take the branch of the same rule;
    the label of [sentiment analysis.py] is that of [app.py] renamed on
    rules 2, 4 and 5, and the two labels are equal exactly on Purchase
    Interest, Complaint and General. *)
Theorem C9_duplicates_agree (lower : str -> str) (text : str) :
  let i := Fired.fired_rule lower text in
  i <= 5
  /\ App.detect_intent lower text = Fired.label_app i
  /\ SentimentAnalysis.detect_intent lower text = Fired.label_duplicate i
  /\ SentimentAnalysis.detect_intent lower text
     = Spec.relabel (App.detect_intent lower text)
  /\ (SentimentAnalysis.detect_intent lower text = App.detect_intent lower text
      <-> In (App.detect_intent lower text)
             (map lit ["Purchase Interest"; "Complaint"; "General"]%string))
  /\ (Fired.label_app 2 = lit "Ask for Price"
      /\ Fired.label_duplicate 2 = lit "Ask for price")
  /\ (Fired.label_app 4 = lit "Product Comparison"
      /\ Fired.label_duplicate 4 = lit "Compare Product")
  /\ (Fired.label_app 5 = lit "Ask for Offers"
      /\ Fired.label_duplicate 5 = lit "Ask for offers").
Proof.
  cbn zeta.
  rewrite app_detect_intent_fired, duplicate_detect_intent_fired.
  pose proof (fired_rule_range lower text) as Hr.
  split; [exact Hr|].
  split; [reflexivity|]. split; [reflexivity|].
  split; [|split; [|repeat split]].
  - destruct (Fired.fired_rule lower text) as [|[|[|[|[|[|n]]]]]];
      try lia; reflexivity.
  - destruct (Fired.fired_rule lower text) as [|[|[|[|[|[|n]]]]]];
      try lia; vm_compute;
      (split; [intros H; try discriminate H; auto |
               intros H; try reflexivity;
               repeat (destruct H as [H|H]; [discriminate H|]);
               destruct H]).
Qed.

(** ** The response generator *)

Lemma ai_sales_response_shape (intent sentiment : str) :
  exists q s r, App.ai_sales_response intent sentiment = Triples.triple q s r.
Proof.
  unfold App.ai_sales_response, Triples.triple.
  repeat match goal with
         | |- context [if ?b then _ else _] => destruct b
         end; do 3 eexists; reflexivity.
Qed.

(** C3: for Purchase Interest, Ask for Price and Complaint the response is
    the triple of the intent whatever the sentiment label is; a Complaint
    with a POSITIVE sentiment gets the Complaint triple, which is neither
    the negative-sentiment triple nor the default one. *)
Theorem C3_intent_triple_ignores_sentiment (sentiment : str) :
  App.ai_sales_response (lit "Purchase Interest") sentiment = Triples.purchase
  /\ App.ai_sales_response (lit "Ask for Price") sentiment = Triples.ask_price
  /\ App.ai_sales_response (lit "Complaint") sentiment = Triples.complaint
  /\ App.ai_sales_response (lit "Complaint") (lit "POSITIVE")
     = Triples.complaint
  /\ App.ai_sales_response (lit "Complaint") (lit "NEGATIVE")
     = Triples.complaint
  /\ Triples.complaint <> Triples.negative
  /\ Triples.complaint <> Triples.default.
Proof.
  repeat split; try reflexivity; intros H; discriminate H.
Qed.

(** C4: on every pair of an intent and a sentiment label the response is a
    dict with exactly the keys next_question, soft_handling and
    recommendation, in this order, each holding a non-empty string; reading
    any of the three keys succeeds. *)
Theorem C4_three_nonempty_strings (intent sentiment : str) :
  exists q s r,
    App.ai_sales_response intent sentiment = Triples.triple q s r
    /\ q <> [] /\ s <> [] /\ r <> []
    /\ App.dict_get (App.ai_sales_response intent sentiment)
         (lit "next_question") = Some q
    /\ App.dict_get (App.ai_sales_response intent sentiment)
         (lit "soft_handling") = Some s
    /\ App.dict_get (App.ai_sales_response intent sentiment)
         (lit "recommendation") = Some r.
Proof.
  unfold App.ai_sales_response, Triples.triple.
  destruct (eqb intent (lit "Purchase Interest"));
    [|destruct (eqb intent (lit "Ask for Price"));
      [|destruct (eqb intent (lit "Complaint"));
        [|destruct (eqb sentiment (lit "NEGATIVE"))]]];
    do 3 eexists; (split; [reflexivity|]);
    repeat split; try reflexivity; intros H; discriminate H.
Qed.

(** C5, counterexample: the soft-handling reply to Ask for Price and the
    default recommendation are not the strings of the specification, whose
    apostrophe in "I'll" is U+0027 where the script has U+2019. *)
Lemma C5_apostrophe_differs :
  App.dict_get (App.ai_sales_response (lit "Ask for Price") (lit "POSITIVE"))
    (lit "soft_handling")
  <> Some (lit "I'll help you find the best model in your range.")
  /\
  App.dict_get (App.ai_sales_response (lit "General") (lit "POSITIVE"))
    (lit "recommendation")
  <> Some (lit "Let me know your preference and I'll recommend the best option.").
Proof.
  split; intros H; vm_compute in H; discriminate H.
Qed.

(** C5 (as amended): the response strings are those the specification lists
    with the apostrophe of every "I'll" written U+2019; this changes the
    soft-handling reply to Ask for Price and the default recommendation,
    and every other string is equal character for character. *)
Theorem C5_strings_up_to_apostrophe (intent sentiment : str) :
  App.ai_sales_response intent sentiment
  = map (fun kv => (fst kv, Spec.curl (snd kv)))
        (Spec.generate_response intent sentiment)
  /\
  (forall k v, In (k, v) (Spec.generate_response intent sentiment) ->
     Spec.curl v = v
     \/ (v = lit "I'll help you find the best model in your range."
         /\ Spec.curl v
            = lit "I" ++ rsquo ::
              lit "ll help you find the best model in your range.")
     \/ (v = lit "Let me know your preference and I'll recommend the best option."
         /\ Spec.curl v
            = lit "Let me know your preference and I" ++ rsquo ::
              lit "ll recommend the best option."))
  /\
  App.dict_get (App.ai_sales_response (lit "Ask for Price") sentiment)
    (lit "soft_handling")
  = Some (lit "I" ++ rsquo ::
          lit "ll help you find the best model in your range.").
Proof.
  split; [|split; [|reflexivity]].
  - unfold App.ai_sales_response, Spec.generate_response.
    destruct (eqb intent (lit "Purchase Interest"));
      [|destruct (eqb intent (lit "Ask for Price"));
        [|destruct (eqb intent (lit "Complaint"));
          [|destruct (eqb sentiment (lit "NEGATIVE"))]]];
      vm_compute; reflexivity.
  - intros k v. unfold Spec.generate_response.
    destruct (eqb intent (lit "Purchase Interest"));
      [|destruct (eqb intent (lit "Ask for Price"));
        [|destruct (eqb intent (lit "Complaint"));
          [|destruct (eqb sentiment (lit "NEGATIVE"))]]];
      intros Hin; cbn [In] in Hin;
      repeat (destruct Hin as [Hin|Hin];
              [inversion Hin; subst k v; clear Hin;
               first [ left; vm_compute; reflexivity
                     | right; left; split; vm_compute; reflexivity
                     | right; right; split; vm_compute; reflexivity ]|]);
      destruct Hin.
Qed.

(** C10: for an intent other than Purchase Interest, Ask for Price and
    Complaint the response is decided by the sentiment label alone: the
    negative-sentiment triple for exactly "NEGATIVE", the default triple
    for every other label, "negative" and "Negative" included. *)
Theorem C10_sentiment_decides (intent sentiment : str)
  (Hp : intent <> lit "Purchase Interest")
  (Ha : intent <> lit "Ask for Price")
  (Hc : intent <> lit "Complaint") :
  (sentiment = lit "NEGATIVE" ->
     App.ai_sales_response intent sentiment = Triples.negative)
  /\ (sentiment <> lit "NEGATIVE" ->
     App.ai_sales_response intent sentiment = Triples.default)
  /\ App.ai_sales_response intent (lit "NEGATIVE") = Triples.negative
  /\ App.ai_sales_response intent (lit "negative") = Triples.default
  /\ App.ai_sales_response intent (lit "Negative") = Triples.default
  /\ Triples.negative <> Triples.default.
Proof.
  apply eqb_neq in Hp, Ha, Hc.
  unfold App.ai_sales_response. rewrite Hp, Ha, Hc.
  repeat split; try reflexivity.
  - intros ->. reflexivity.
  - intros Hs. apply eqb_neq in Hs. rewrite Hs. reflexivity.
  - intros H; discriminate H.
Qed.

Lemma C10_sentiment_decides_witness :
  lit "Compare Product" <> lit "Purchase Interest" /\
  lit "Compare Product" <> lit "Ask for Price" /\
  lit "Compare Product" <> lit "Complaint" /\
  App.ai_sales_response (lit "Compare Product") (lit "negative")
  = Triples.default.
Proof.
  assert (Hp : lit "Compare Product" <> lit "Purchase Interest")
    by (intros H; discriminate H).
  assert (Ha : lit "Compare Product" <> lit "Ask for Price")
    by (intros H; discriminate H).
  assert (Hc : lit "Compare Product" <> lit "Complaint")
    by (intros H; discriminate H).
  split; [exact Hp|]. split; [exact Ha|]. split; [exact Hc|].
  apply (proj1 (proj2 (C10_sentiment_decides
                         (lit "Compare Product") (lit "negative") Hp Ha Hc))).
  intros H; discriminate H.
Defined.

(** ** The analysis runs *)

Section Runs.

Variable lower : str -> str.
Variable Score : Type.
Variable round2 : Score -> Score.
Variable c : Pipeline.Collaborators Score.

(** Reading the three keys of a response never raises. *)
Lemma getitem_triple (q s r : str) :
  Pipeline.getitem (Triples.triple q s r) (lit "next_question")
    = Pipeline.ret Score q
  /\ Pipeline.getitem (Triples.triple q s r) (lit "soft_handling")
    = Pipeline.ret Score s
  /\ Pipeline.getitem (Triples.triple q s r) (lit "recommendation")
    = Pipeline.ret Score r.
Proof. repeat split. Qed.

Lemma run_app_calls (path : str) :
  truthy path = true ->
  let text := strip (Pipeline.get_text (Pipeline.transcribe c path)) in
  Pipeline.calls
    (Pipeline.log_of (Pipeline.run_app lower round2 c (Some path)))
  = Pipeline.CallTranscribe path :: Pipeline.CallSentiment text ::
    match Pipeline.sentiment_model c text with
    | [] => []
    | _ :: _ => [Pipeline.CallNer text]
    end.
Proof.
  intros Hpath text.
  unfold Pipeline.run_app. rewrite Hpath. fold text.
  destruct (Pipeline.sentiment_model c text) as [|[label score] rest] eqn:E.
  - run_steps. fold text. rewrite E. reflexivity.
  - run_steps. fold text. rewrite E. run_steps.
    destruct (ai_sales_response_shape (App.detect_intent lower text) label)
      as (q & s & r & Hai).
    rewrite Hai.
    destruct (getitem_triple q s r) as (-> & -> & ->).
    reflexivity.
Qed.

Lemma run_app_idle (wav_path : option str) :
  match wav_path with Some path => truthy path = false | None => True end ->
  Pipeline.log_of (Pipeline.run_app lower round2 c wav_path) = [].
Proof.
  destruct wav_path as [path|]; [intros H|intros _]; unfold Pipeline.run_app.
  - rewrite H. reflexivity.
  - reflexivity.
Qed.

Lemma run_sentiment_analysis_calls (wav_path : str) :
  let text := strip (Pipeline.get_text (Pipeline.transcribe c wav_path)) in
  Pipeline.calls
    (Pipeline.log_of
       (Pipeline.run_sentiment_analysis lower round2 c true wav_path))
  = Pipeline.CallTranscribe wav_path :: Pipeline.CallSentiment text ::
    match Pipeline.sentiment_model c text with
    | [] => []
    | _ :: _ => [Pipeline.CallNer text]
    end.
Proof.
  intros text.
  unfold Pipeline.run_sentiment_analysis. fold text.
  destruct (Pipeline.sentiment_model c text) as [|[label score] rest] eqn:E;
    run_steps; fold text; rewrite E; reflexivity.
Qed.

Lemma run_app_intents (path : str) :
  truthy path = true ->
  let text := strip (Pipeline.get_text (Pipeline.transcribe c path)) in
  shown_intents
    (Pipeline.log_of (Pipeline.run_app lower round2 c (Some path)))
  = match Pipeline.sentiment_model c text with
    | [] => []
    | _ :: _ => [App.detect_intent lower text]
    end.
Proof.
  intros Hpath text.
  unfold Pipeline.run_app. rewrite Hpath. fold text.
  destruct (Pipeline.sentiment_model c text) as [|[label score] rest] eqn:E.
  - run_steps. fold text. rewrite E. reflexivity.
  - run_steps. fold text. rewrite E. run_steps.
    destruct (ai_sales_response_shape (App.detect_intent lower text) label)
      as (q & s & r & Hai).
    rewrite Hai.
    destruct (getitem_triple q s r) as (-> & -> & ->).
    reflexivity.
Qed.

Lemma run_sentiment_analysis_intents (wav_path : str) :
  let text := strip (Pipeline.get_text (Pipeline.transcribe c wav_path)) in
  shown_intents
    (Pipeline.log_of
       (Pipeline.run_sentiment_analysis lower round2 c true wav_path))
  = match Pipeline.sentiment_model c text with
    | [] => []
    | _ :: _ => [SentimentAnalysis.detect_intent lower text]
    end.
Proof.
  intros text.
  unfold Pipeline.run_sentiment_analysis. fold text.
  destruct (Pipeline.sentiment_model c text) as [|[label score] rest] eqn:E;
    run_steps; fold text; rewrite E; reflexivity.
Qed.

End Runs.

(** C8, counterexample: on a silent recording the transcript is empty and
    both scripts still call the sentiment model and the entity model on
    it. *)
Lemma C8_models_called_on_empty_transcript :
  strip (Pipeline.get_text (Pipeline.transcribe silent (lit "rec.wav"))) = []
  /\ Pipeline.calls
       (Pipeline.log_of
          (Pipeline.run_app ascii_lower (fun x => x) silent
             (Some (lit "rec.wav"))))
     = [Pipeline.CallTranscribe (lit "rec.wav"); Pipeline.CallSentiment [];
        Pipeline.CallNer []]
  /\ Pipeline.calls
       (Pipeline.log_of
          (Pipeline.run_sentiment_analysis ascii_lower (fun x => x) silent
             true (lit "rec.wav")))
     = [Pipeline.CallTranscribe (lit "rec.wav"); Pipeline.CallSentiment [];
        Pipeline.CallNer []].
Proof. repeat split. Qed.

(** C8 (as amended): once a recording is at hand, both scripts call the
    sentiment model on the stripped transcript without any guard, the empty
    transcript included, right after the transcription, and then call the
    entity model on the same text whenever the sentiment model returned at
    least one result; these are all the collaborator calls of a run.  The
    intent shown is then the classifier's result on the same text, and on
    the empty transcript the classifier yields General. *)
Theorem C8_collaborators_called_unguarded
  (lower : str -> str) (Score : Type) (round2 : Score -> Score)
  (c : Pipeline.Collaborators Score) (path : str)
  (Hpath : truthy path = true) :
  let text := strip (Pipeline.get_text (Pipeline.transcribe c path)) in
  let expected :=
    Pipeline.CallTranscribe path :: Pipeline.CallSentiment text ::
    match Pipeline.sentiment_model c text with
    | [] => []
    | _ :: _ => [Pipeline.CallNer text]
    end in
  Pipeline.calls
    (Pipeline.log_of (Pipeline.run_app lower round2 c (Some path)))
  = expected
  /\
  Pipeline.calls
    (Pipeline.log_of
       (Pipeline.run_sentiment_analysis lower round2 c true path))
  = expected
  /\
  shown_intents
    (Pipeline.log_of (Pipeline.run_app lower round2 c (Some path)))
  = match Pipeline.sentiment_model c text with
    | [] => []
    | _ :: _ => [App.detect_intent lower text]
    end
  /\
  shown_intents
    (Pipeline.log_of
       (Pipeline.run_sentiment_analysis lower round2 c true path))
  = match Pipeline.sentiment_model c text with
    | [] => []
    | _ :: _ => [SentimentAnalysis.detect_intent lower text]
    end
  /\
  ((forall s, isascii s = true -> lower s = ascii_lower s) ->
   text = [] ->
   App.detect_intent lower text = lit "General" /\
   SentimentAnalysis.detect_intent lower text = lit "General").
Proof.
  cbv zeta. repeat apply conj.
  - apply run_app_calls. exact Hpath.
  - apply run_sentiment_analysis_calls.
  - apply run_app_intents. exact Hpath.
  - apply run_sentiment_analysis_intents.
  - intros Hascii ->. split.
    + unfold App.detect_intent. rewrite Hascii by reflexivity. reflexivity.
    + unfold SentimentAnalysis.detect_intent.
      rewrite Hascii by reflexivity. reflexivity.
Qed.

Lemma C8_collaborators_called_unguarded_witness :
  truthy (lit "rec.wav") = true /\
  Pipeline.calls
    (Pipeline.log_of
       (Pipeline.run_app ascii_lower (fun x => x) silent
          (Some (lit "rec.wav"))))
  = [Pipeline.CallTranscribe (lit "rec.wav"); Pipeline.CallSentiment [];
     Pipeline.CallNer []]
  /\
  shown_intents
    (Pipeline.log_of
       (Pipeline.run_app ascii_lower (fun x => x) silent
          (Some (lit "rec.wav"))))
  = [App.detect_intent ascii_lower
       (strip (Pipeline.get_text
                 (Pipeline.transcribe silent (lit "rec.wav"))))]
  /\
  App.detect_intent ascii_lower
    (strip (Pipeline.get_text (Pipeline.transcribe silent (lit "rec.wav"))))
  = lit "General".
Proof.
  destruct (C8_collaborators_called_unguarded
              ascii_lower N (fun x => x) silent (lit "rec.wav") eq_refl)
    as (Hcalls & _ & Hshown & _ & Hgeneral).
  split; [reflexivity|]. split; [exact Hcalls|]. split; [exact Hshown|].
  exact (proj1 (Hgeneral (fun s _ => eq_refl) eq_refl)).
Defined.

(** * Further properties of the scripts *)

(** ** The classifier, both directions *)

Lemma find_first_match_inv {A} (p : A -> bool) (l : list A) (x : A) :
  find p l = Some x ->
  exists i, nth_error l i = Some x /\ p x = true /\
            forall j y, j < i -> nth_error l j = Some y -> p y = false.
Proof.
  induction l as [|a l IH]; simpl; [discriminate|].
  destruct (p a) eqn:Ea.
  - intros H. inversion H; subst. exists 0. repeat split; auto.
    intros j y Hj. lia.
  - intros H. destruct (IH H) as (i & Hi & Hp & Hb).
    exists (S i). repeat split; auto.
    intros [|j] y Hj Hy; simpl in Hy.
    + inversion Hy; subst. exact Ea.
    + apply (Hb j y); [lia | exact Hy].
Qed.

Lemma rule_labels_nodup : NoDup (map snd Spec.rule_table).
Proof.
  unfold Spec.rule_table. cbn [map snd].
  repeat (constructor;
          [cbn [In]; intros H;
           repeat (destruct H as [H|H]; [discriminate H|]); exact H|]).
  constructor.
Qed.

Lemma rule_labels_not_general : ~ In (lit "General") (map snd Spec.rule_table).
Proof.
  unfold Spec.rule_table. cbn [map snd In]. intros H.
  repeat (destruct H as [H|H]; [discriminate H|]). exact H.
Qed.

Lemma rule_label_index (i j : nat) (r r' : list str * str) :
  nth_error Spec.rule_table i = Some r ->
  nth_error Spec.rule_table j = Some r' ->
  snd r = snd r' -> i = j.
Proof.
  intros Hi Hj Heq.
  assert (Hlen : i < List.length (map snd Spec.rule_table)).
  { rewrite List.length_map. apply nth_error_Some. congruence. }
  apply (proj1 (NoDup_nth_error (map snd Spec.rule_table)) rule_labels_nodup
           i j Hlen).
  rewrite !nth_error_map, Hi, Hj. simpl. congruence.
Qed.

(** X1: a label of the rule table is returned exactly when its rule is the
    first one with a keyword in the lowercased text. *)
Theorem X1_label_iff_first_match (lower : str -> str) (text : str)
  (i : nat) (kws : list str) (label : str)
  (Hrule : nth_error Spec.rule_table i = Some (kws, label)) :
  App.detect_intent lower text = label
  <->
  (any_in kws (lower text) = true /\
   forall j r, j < i -> nth_error Spec.rule_table j = Some r ->
               any_in (fst r) (lower text) = false).
Proof.
  rewrite app_detect_intent_classify. unfold Spec.classify_intent. split.
  - destruct (find _ Spec.rule_table) as [r|] eqn:E.
    + intros Hlabel.
      destruct (find_first_match_inv _ _ _ E) as (k & Hk & Hp & Hb).
      assert (k = i) by (apply (rule_label_index k i r (kws, label)); auto).
      subst k. rewrite Hrule in Hk. inversion Hk; subst r.
      split; [exact Hp | exact Hb].
    + intros Hlabel. exfalso. apply rule_labels_not_general.
      rewrite Hlabel. apply in_map_iff. exists (kws, label).
      split; [reflexivity|]. apply (nth_error_In _ i). exact Hrule.
  - intros [Hm Hb].
    rewrite (find_first_match
               (fun r => any_in (fst r) (lower text)) Spec.rule_table
               i (kws, label)); auto.
Qed.

Lemma X1_label_iff_first_match_witness :
  nth_error Spec.rule_table 2
    = Some (map lit ["not working"; "issue"; "problem"; "complaint"]%string,
            lit "Complaint")
  /\ (App.detect_intent ascii_lower (lit "My Battery has an ISSUE")
        = lit "Complaint"
      <->
      (any_in (map lit ["not working"; "issue"; "problem"; "complaint"]%string)
              (ascii_lower (lit "My Battery has an ISSUE")) = true /\
       forall j r, j < 2 -> nth_error Spec.rule_table j = Some r ->
         any_in (fst r) (ascii_lower (lit "My Battery has an ISSUE")) = false)).
Proof.
  split; [reflexivity|].
  exact (X1_label_iff_first_match ascii_lower (lit "My Battery has an ISSUE")
           2 _ _ eq_refl).
Defined.

Lemma first_index_zero {A} (p : A -> bool) (l : list A) (k : nat) :
  Fired.first_index p l (S k) = 0 <-> forall x, In x l -> p x = false.
Proof.
  revert k; induction l as [|a l IH]; intros k; simpl.
  - split; [intros _ x [] | reflexivity].
  - destruct (p a) eqn:Ea.
    + split; [discriminate|]. intros H.
      rewrite (H a (or_introl eq_refl)) in Ea. discriminate.
    + rewrite IH. split.
      * intros H x [<-|Hx]; auto.
      * intros H x Hx. apply H. right. exact Hx.
Qed.

Lemma fired_zero_iff (lower : str -> str) (text : str) :
  Fired.fired_rule lower text = 0
  <-> forall kw, In kw Spec.keywords -> contains kw (lower text) = false.
Proof.
  unfold Fired.fired_rule. rewrite first_index_zero. split.
  - intros H kw Hkw. unfold Spec.keywords in Hkw.
    apply in_flat_map in Hkw. destruct Hkw as (r & Hr & Hin).
    specialize (H r Hr). unfold any_in in H.
    destruct (contains kw (lower text)) eqn:E; [|reflexivity].
    rewrite <- H. symmetry. apply existsb_exists. exists kw. auto.
  - intros H r Hr. apply any_in_false. intros kw Hkw. apply H.
    unfold Spec.keywords. apply in_flat_map. exists r. auto.
Qed.

(** X2: in both scripts the result is General exactly when the lowercased
    text contains none of the keywords. *)
Theorem X2_general_iff_no_keyword (lower : str -> str) (text : str) :
  (App.detect_intent lower text = lit "General"
   <-> forall kw, In kw Spec.keywords -> contains kw (lower text) = false)
  /\
  (SentimentAnalysis.detect_intent lower text = lit "General"
   <-> forall kw, In kw Spec.keywords -> contains kw (lower text) = false).
Proof.
  rewrite app_detect_intent_fired, duplicate_detect_intent_fired,
    <- fired_zero_iff.
  pose proof (fired_rule_range lower text) as Hr.
  destruct (Fired.fired_rule lower text) as [|[|[|[|[|[|n]]]]]]; try lia;
    split; split; intros H; try reflexivity; discriminate H.
Qed.

(** X3: no keyword is shadowed by a rule of higher priority: in both
    scripts a text that consists of one keyword alone gets the label of
    the rule the keyword belongs to. *)
Theorem X3_every_keyword_live (lower : str -> str)
  (Hascii : forall s, isascii s = true -> lower s = ascii_lower s)
  (kws : list str) (label kw : str)
  (Hrule : In (kws, label) Spec.rule_table) (Hkw : In kw kws) :
  App.detect_intent lower kw = label /\
  SentimentAnalysis.detect_intent lower kw = Spec.relabel label.
Proof.
  unfold Spec.rule_table in Hrule. cbn [In] in Hrule.
  repeat (destruct Hrule as [Hrule|Hrule];
          [inversion Hrule; subst kws label; clear Hrule;
           cbn [map In] in Hkw;
           repeat (destruct Hkw as [Hkw|Hkw];
                   [subst kw;
                    unfold App.detect_intent, SentimentAnalysis.detect_intent;
                    rewrite Hascii by reflexivity;
                    split; vm_compute; reflexivity|]);
           destruct Hkw|]).
  destruct Hrule.
Qed.

Lemma X3_every_keyword_live_witness :
  (forall s, isascii s = true -> ascii_lower s = ascii_lower s) /\
  In (map lit ["offer"; "discount"; "deal"]%string, lit "Ask for Offers")
     Spec.rule_table /\
  In (lit "discount") (map lit ["offer"; "discount"; "deal"]%string) /\
  App.detect_intent ascii_lower (lit "discount") = lit "Ask for Offers" /\
  SentimentAnalysis.detect_intent ascii_lower (lit "discount")
    = Spec.relabel (lit "Ask for Offers").
Proof.
  assert (Hrule : In (map lit ["offer"; "discount"; "deal"]%string,
                      lit "Ask for Offers") Spec.rule_table).
  { unfold Spec.rule_table. cbn [In]. do 4 right. left. reflexivity. }
  assert (Hkw : In (lit "discount")
                   (map lit ["offer"; "discount"; "deal"]%string)).
  { cbn [map In]. right. left. reflexivity. }
  split; [reflexivity|]. split; [exact Hrule|]. split; [exact Hkw|].
  exact (X3_every_keyword_live ascii_lower (fun s _ => eq_refl) _ _ _
           Hrule Hkw).
Defined.

(** ** Longer texts *)

Lemma contains_extend (kw pre t post : str) :
  contains kw t = true -> contains kw (pre ++ t ++ post) = true.
Proof.
  rewrite !contains_iff. intros (a & b & ->).
  exists (pre ++ a), (b ++ post). rewrite <- !app_assoc. reflexivity.
Qed.

Lemma isascii_app (a b : str) : isascii (a ++ b) = isascii a && isascii b.
Proof. unfold isascii. apply forallb_app. Qed.

Lemma any_in_extend (kws : list str) (pre t post : str) :
  any_in kws (ascii_lower t) = true ->
  any_in kws (ascii_lower (pre ++ t ++ post)) = true.
Proof.
  unfold any_in. rewrite !existsb_exists. intros (kw & Hin & Hc).
  exists kw. split; [exact Hin|].
  unfold ascii_lower. rewrite !map_app. apply contains_extend. exact Hc.
Qed.

Lemma first_index_mono {A} (p q : A -> bool) (l : list A) (k : nat) :
  (forall x, p x = true -> q x = true) ->
  Fired.first_index p l (S k) <> 0 ->
  1 <= Fired.first_index q l (S k) <= Fired.first_index p l (S k).
Proof.
  intros Hpq. revert k; induction l as [|a l IH]; intros k; simpl.
  - intros H. congruence.
  - destruct (p a) eqn:Ea.
    + rewrite (Hpq a Ea). lia.
    + intros H. specialize (IH (S k) H).
      destruct (q a); [|exact IH].
      assert (Hge : forall m, Fired.first_index p l m <> 0 ->
                              m <= Fired.first_index p l m).
      { clear. induction l as [|b l IHl]; intros m; simpl; [congruence|].
        destruct (p b); [lia|]. intros H. specialize (IHl (S m) H). lia. }
      specialize (Hge (S (S k)) H). lia.
Qed.

(** X4: on ASCII texts, putting more text before or after can only keep
    the rule that fires or move it to one of higher priority: a Purchase
    Interest stays one, and a text is General only if every part of it
    is. *)
Theorem X4_longer_text_higher_priority (lower : str -> str)
  (Hascii : forall s, isascii s = true -> lower s = ascii_lower s)
  (pre t post : str)
  (Htext : isascii (pre ++ t ++ post) = true) :
  (Fired.fired_rule lower t <> 0 ->
   1 <= Fired.fired_rule lower (pre ++ t ++ post) <= Fired.fired_rule lower t)
  /\
  (App.detect_intent lower t = lit "Purchase Interest" ->
   App.detect_intent lower (pre ++ t ++ post) = lit "Purchase Interest")
  /\
  (App.detect_intent lower (pre ++ t ++ post) = lit "General" ->
   App.detect_intent lower t = lit "General").
Proof.
  assert (Ht : isascii t = true).
  { rewrite !isascii_app in Htext.
    apply andb_true_iff in Htext. destruct Htext as [_ Htext].
    apply andb_true_iff in Htext. tauto. }
  assert (Hmono : Fired.fired_rule lower t <> 0 ->
    1 <= Fired.fired_rule lower (pre ++ t ++ post)
      <= Fired.fired_rule lower t).
  { unfold Fired.fired_rule. rewrite (Hascii _ Htext), (Hascii _ Ht).
    apply first_index_mono. intros r. apply any_in_extend. }
  split; [exact Hmono|].
  rewrite !app_detect_intent_fired.
  pose proof (fired_rule_range lower t) as Hr.
  pose proof (fired_rule_range lower (pre ++ t ++ post)) as Hr'.
  split; intros H.
  - destruct (Fired.fired_rule lower t) as [|[|[|[|[|[|n]]]]]]; try lia;
      try discriminate H.
    assert (Fired.fired_rule lower (pre ++ t ++ post) = 1) as ->
      by (specialize (Hmono ltac:(lia)); lia).
    reflexivity.
  - destruct (Fired.fired_rule lower t) as [|n] eqn:E; [reflexivity|].
    specialize (Hmono ltac:(lia)).
    destruct (Fired.fired_rule lower (pre ++ t ++ post))
      as [|[|[|[|[|[|m]]]]]]; try lia; discriminate H.
Qed.

Lemma X4_longer_text_higher_priority_witness :
  (forall s, isascii s = true -> ascii_lower s = ascii_lower s) /\
  isascii (lit "I want to buy it, " ++ lit "is there a discount" ++ lit "?")
    = true /\
  1 <= Fired.fired_rule ascii_lower
         (lit "I want to buy it, " ++ lit "is there a discount" ++ lit "?")
    <= Fired.fired_rule ascii_lower (lit "is there a discount").
Proof.
  split; [reflexivity|]. split; [reflexivity|].
  apply (proj1 (X4_longer_text_higher_priority ascii_lower
                  (fun s _ => eq_refl) (lit "I want to buy it, ")
                  (lit "is there a discount") (lit "?") eq_refl)).
  vm_compute. discriminate.
Defined.

(** ** Responses to classified texts *)

(** X5: the response to a classified text has a triple of its own only
    when rule 1, 2 or 3 fired; a Product Comparison, an Ask for Offers and a
    General text all get the response the sentiment label selects. *)
Theorem X5_response_of_classified_text
  (lower : str -> str) (text sentiment : str) :
  App.ai_sales_response (App.detect_intent lower text) sentiment
  = match Fired.fired_rule lower text with
    | 1 => Triples.purchase
    | 2 => Triples.ask_price
    | 3 => Triples.complaint
    | _ => if eqb sentiment (lit "NEGATIVE")
           then Triples.negative else Triples.default
    end.
Proof.
  rewrite app_detect_intent_fired.
  pose proof (fired_rule_range lower text) as Hr.
  destruct (Fired.fired_rule lower text) as [|[|[|[|[|[|n]]]]]];
    try lia; try reflexivity;
    unfold App.ai_sales_response; cbn -[lit];
    destruct (eqb sentiment (lit "NEGATIVE")); reflexivity.
Qed.


(** ** Stripping *)

Lemma lstrip_head (s : str) (ch : N) (rest : str) :
  lstrip s = ch :: rest -> isspace ch = false.
Proof.
  induction s as [|a s IH]; simpl; [discriminate|].
  destruct (isspace a) eqn:Ea; [exact IH|].
  intros H. inversion H; subst. exact Ea.
Qed.

Lemma lstrip_snoc (l : str) (x : N) :
  isspace x = false -> lstrip (l ++ [x]) = lstrip l ++ [x].
Proof.
  intros Hx. induction l as [|a l IH]; simpl.
  - rewrite Hx. reflexivity.
  - destruct (isspace a); [exact IH | reflexivity].
Qed.

Lemma lstrip_fixed (s : str) :
  (forall ch rest, s = ch :: rest -> isspace ch = false) -> lstrip s = s.
Proof.
  destruct s as [|a s]; [reflexivity|]. intros H. simpl.
  rewrite (H a s eq_refl). reflexivity.
Qed.

Lemma lstrip_blank (s : str) : forallb isspace s = true -> lstrip s = [].
Proof.
  induction s as [|a s IH]; simpl; [reflexivity|].
  intros H. apply andb_true_iff in H. destruct H as [Ha Hs].
  rewrite Ha. exact (IH Hs).
Qed.

Lemma rstrip_cons (x : N) (t : str) :
  isspace x = false -> rstrip (x :: t) = x :: rstrip t.
Proof.
  intros Hx. unfold rstrip. simpl rev at 2.
  rewrite (lstrip_snoc _ _ Hx), rev_app_distr. reflexivity.
Qed.

Lemma rstrip_last (t init : str) (ch : N) :
  rstrip t = init ++ [ch] -> isspace ch = false.
Proof.
  unfold rstrip. intros H.
  apply (f_equal (@rev N)) in H.
  rewrite rev_involutive, rev_app_distr in H. simpl in H.
  exact (lstrip_head _ _ _ H).
Qed.

Lemma rstrip_fixed (t : str) :
  (forall init ch, t = init ++ [ch] -> isspace ch = false) -> rstrip t = t.
Proof.
  intros H. unfold rstrip. rewrite lstrip_fixed.
  - apply rev_involutive.
  - intros ch rest Hrev. apply (H (rev rest) ch).
    rewrite <- (rev_involutive t), Hrev. reflexivity.
Qed.

Lemma strip_head (s : str) (ch : N) (rest : str) :
  strip s = ch :: rest -> isspace ch = false.
Proof.
  unfold strip. destruct (lstrip s) as [|x t] eqn:E.
  - discriminate.
  - pose proof (lstrip_head _ _ _ E) as Hx.
    rewrite (rstrip_cons _ _ Hx). intros H. inversion H; subst. exact Hx.
Qed.

Lemma strip_last (s init : str) (ch : N) :
  strip s = init ++ [ch] -> isspace ch = false.
Proof. unfold strip. apply rstrip_last. Qed.

Lemma strip_idem (s : str) : strip (strip s) = strip s.
Proof.
  unfold strip at 1. rewrite (lstrip_fixed (strip s)).
  - apply rstrip_fixed. intros init ch. apply strip_last.
  - intros ch rest. apply strip_head.
Qed.

Lemma strip_blank (s : str) : forallb isspace s = true -> strip s = [].
Proof. intros H. unfold strip. rewrite (lstrip_blank _ H). reflexivity. Qed.

(** ** Whole runs of the analysis *)

Section WholeRuns.

Variable lower : str -> str.
Variable Score : Type.
Variable round2 : Score -> Score.
Variable c : Pipeline.Collaborators Score.

(** X7: when the sentiment model answers with an empty list, both scripts
    stop with an IndexError right after that call: the transcript has been
    shown, the entity model is not called and no sentiment, intent or
    response is shown. *)
Theorem X7_empty_sentiment_result_aborts (path : str)
  (Hpath : truthy path = true)
  (Hempty : Pipeline.sentiment_model c
              (strip (Pipeline.get_text (Pipeline.transcribe c path))) = []) :
  Pipeline.run_app lower round2 c (Some path) []
  = (inr Pipeline.IndexError,
     [Pipeline.CallTranscribe path;
      Pipeline.ShowText
        (strip (Pipeline.get_text (Pipeline.transcribe c path)));
      Pipeline.CallSentiment
        (strip (Pipeline.get_text (Pipeline.transcribe c path)))])
  /\
  Pipeline.run_sentiment_analysis lower round2 c true path []
  = (inr Pipeline.IndexError,
     [Pipeline.CallTranscribe path;
      Pipeline.ShowText
        (strip (Pipeline.get_text (Pipeline.transcribe c path)));
      Pipeline.CallSentiment
        (strip (Pipeline.get_text (Pipeline.transcribe c path)))]).
Proof.
  split.
  - unfold Pipeline.run_app. rewrite Hpath. run_steps.
    rewrite Hempty. reflexivity.
  - unfold Pipeline.run_sentiment_analysis. run_steps.
    rewrite Hempty. reflexivity.
Qed.

Lemma run_app_log (path label : str) (score : Score)
  (rest : list (str * Score)) (q s r : str) :
  truthy path = true ->
  Pipeline.sentiment_model c
    (strip (Pipeline.get_text (Pipeline.transcribe c path)))
  = (label, score) :: rest ->
  App.ai_sales_response
    (App.detect_intent lower
       (strip (Pipeline.get_text (Pipeline.transcribe c path)))) label
  = Triples.triple q s r ->
  Pipeline.run_app lower round2 c (Some path) []
  = (inl tt,
     [Pipeline.CallTranscribe path;
      Pipeline.ShowText
        (strip (Pipeline.get_text (Pipeline.transcribe c path)));
      Pipeline.CallSentiment
        (strip (Pipeline.get_text (Pipeline.transcribe c path)));
      Pipeline.ShowSentiment label (round2 score);
      Pipeline.ShowIntent
        (App.detect_intent lower
           (strip (Pipeline.get_text (Pipeline.transcribe c path))));
      Pipeline.CallNer
        (strip (Pipeline.get_text (Pipeline.transcribe c path)));
      Pipeline.ShowEntities
        (Pipeline.ner_model c
           (strip (Pipeline.get_text (Pipeline.transcribe c path))));
      Pipeline.ShowAI q s r]).
Proof.
  intros Hpath Hsent Hai.
  set (text := strip (Pipeline.get_text (Pipeline.transcribe c path))) in *.
  unfold Pipeline.run_app. rewrite Hpath. run_steps. fold text.
  rewrite Hsent. run_steps. rewrite Hai.
  destruct (getitem_triple Score q s r) as (-> & -> & ->).
  reflexivity.
Qed.

(** X8: when the sentiment model answers with at least one result, both
    scripts run to the end without an exception; the log is fixed by the
    transcript, the first result's label and rounded score and the
    entities: further results are ignored, and reading the three keys of
    the response never fails. *)
Theorem X8_run_to_the_end (path label : str) (score : Score)
  (rest : list (str * Score))
  (Hpath : truthy path = true)
  (Hsent : Pipeline.sentiment_model c
             (strip (Pipeline.get_text (Pipeline.transcribe c path)))
           = (label, score) :: rest) :
  let text := strip (Pipeline.get_text (Pipeline.transcribe c path)) in
  (exists q s r,
     App.ai_sales_response (App.detect_intent lower text) label
       = Triples.triple q s r /\
     Pipeline.run_app lower round2 c (Some path) []
     = (inl tt,
        [Pipeline.CallTranscribe path; Pipeline.ShowText text;
         Pipeline.CallSentiment text;
         Pipeline.ShowSentiment label (round2 score);
         Pipeline.ShowIntent (App.detect_intent lower text);
         Pipeline.CallNer text;
         Pipeline.ShowEntities (Pipeline.ner_model c text);
         Pipeline.ShowAI q s r]))
  /\
  Pipeline.run_sentiment_analysis lower round2 c true path []
  = (inl tt,
     [Pipeline.CallTranscribe path; Pipeline.ShowText text;
      Pipeline.CallSentiment text;
      Pipeline.ShowSentiment label (round2 score);
      Pipeline.ShowIntent (SentimentAnalysis.detect_intent lower text);
      Pipeline.CallNer text;
      Pipeline.ShowEntities (Pipeline.ner_model c text)]).
Proof.
  intros text. subst text.
  set (text := strip (Pipeline.get_text (Pipeline.transcribe c path))) in *.
  split.
  - destruct (ai_sales_response_shape (App.detect_intent lower text) label)
      as (q & s & r & Hai).
    exists q, s, r. split; [exact Hai|].
    exact (run_app_log path label score rest q s r Hpath Hsent Hai).
  - unfold Pipeline.run_sentiment_analysis. run_steps. fold text.
    rewrite Hsent. reflexivity.
Qed.

(** The text of a model call is the stripped transcript. *)
Lemma call_text_app (wav_path : option str) (text : str) :
  In (Pipeline.CallSentiment text)
     (Pipeline.log_of (Pipeline.run_app lower round2 c wav_path))
  \/ In (Pipeline.CallNer text)
        (Pipeline.log_of (Pipeline.run_app lower round2 c wav_path)) ->
  exists path,
    wav_path = Some path /\
    text = strip (Pipeline.get_text (Pipeline.transcribe c path)).
Proof.
  intros H.
  assert (Hcalls : exists e,
            (e = Pipeline.CallSentiment text \/ e = Pipeline.CallNer text) /\
            In e (Pipeline.calls
                    (Pipeline.log_of
                       (Pipeline.run_app lower round2 c wav_path)))).
  { destruct H as [H|H];
      [exists (Pipeline.CallSentiment text) |
       exists (Pipeline.CallNer text)];
      (split; [auto|]); unfold Pipeline.calls; apply filter_In; auto. }
  destruct Hcalls as (e & He & Hin).
  destruct wav_path as [path|].
  - destruct (truthy path) eqn:Hpath.
    + pose proof (run_app_calls lower Score round2 c path Hpath) as Hc.
      cbv zeta in Hc. rewrite Hc in Hin. exists path.
      destruct Hin as [Hin|[Hin|Hin]].
      * destruct He as [-> | ->]; discriminate Hin.
      * destruct He as [-> | ->];
          [split; [reflexivity | congruence] | discriminate Hin].
      * destruct (Pipeline.sentiment_model c _); [destruct Hin|].
        destruct Hin as [Hin|[]].
        destruct He as [-> | ->];
          [discriminate Hin | split; [reflexivity | congruence]].
    + rewrite (run_app_idle lower Score round2 c (Some path) Hpath) in Hin.
      destruct Hin.
  - rewrite (run_app_idle lower Score round2 c None I) in Hin. destruct Hin.
Qed.

Lemma call_text_duplicate (button : bool) (path text : str) :
  In (Pipeline.CallSentiment text)
     (Pipeline.log_of
        (Pipeline.run_sentiment_analysis lower round2 c button path))
  \/ In (Pipeline.CallNer text)
        (Pipeline.log_of
           (Pipeline.run_sentiment_analysis lower round2 c button path)) ->
  button = true /\
  text = strip (Pipeline.get_text (Pipeline.transcribe c path)).
Proof.
  intros H. destruct button; [|destruct H as [[]|[]]].
  split; [reflexivity|].
  assert (Hcalls : exists e,
            (e = Pipeline.CallSentiment text \/ e = Pipeline.CallNer text) /\
            In e (Pipeline.calls
                    (Pipeline.log_of
                       (Pipeline.run_sentiment_analysis
                          lower round2 c true path)))).
  { destruct H as [H|H];
      [exists (Pipeline.CallSentiment text) |
       exists (Pipeline.CallNer text)];
      (split; [auto|]); unfold Pipeline.calls; apply filter_In; auto. }
  destruct Hcalls as (e & He & Hin).
  pose proof (run_sentiment_analysis_calls lower Score round2 c path) as Hc.
  cbv zeta in Hc. rewrite Hc in Hin.
  destruct Hin as [Hin|[Hin|Hin]].
  - destruct He as [-> | ->]; discriminate Hin.
  - destruct He as [-> | ->]; [congruence | discriminate Hin].
  - destruct (Pipeline.sentiment_model c _); [destruct Hin|].
    destruct Hin as [Hin|[]].
    destruct He as [-> | ->]; [discriminate Hin | congruence].
Qed.


(** X10: when the transcription has no text or only whitespace, [app.py]
    analyses the empty string: the intent shown is General and the response
    is the one the sentiment label selects. *)
Theorem X10_blank_transcript (path label : str) (score : Score)
  (rest : list (str * Score))
  (Hascii : forall s, isascii s = true -> lower s = ascii_lower s)
  (Hpath : truthy path = true)
  (Hblank : forallb isspace
              (Pipeline.get_text (Pipeline.transcribe c path)) = true)
  (Hsent : Pipeline.sentiment_model c [] = (label, score) :: rest) :
  exists q s r,
    Triples.triple q s r
    = (if eqb label (lit "NEGATIVE")
       then Triples.negative else Triples.default)
    /\
    Pipeline.run_app lower round2 c (Some path) []
    = (inl tt,
       [Pipeline.CallTranscribe path; Pipeline.ShowText [];
        Pipeline.CallSentiment [];
        Pipeline.ShowSentiment label (round2 score);
        Pipeline.ShowIntent (lit "General");
        Pipeline.CallNer [];
        Pipeline.ShowEntities (Pipeline.ner_model c []);
        Pipeline.ShowAI q s r]).
Proof.
  pose proof (strip_blank _ Hblank) as Htext.
  assert (Hgen : App.detect_intent lower [] = lit "General").
  { unfold App.detect_intent. rewrite Hascii by reflexivity. reflexivity. }
  destruct (ai_sales_response_shape (lit "General") label)
    as (q & s & r & Hai).
  exists q, s, r. split.
  - rewrite <- Hai. unfold App.ai_sales_response. cbn -[lit].
    destruct (eqb label (lit "NEGATIVE")); reflexivity.
  - pose proof (run_app_log path label score rest q s r Hpath) as Hlog.
    rewrite Htext, Hgen in Hlog. exact (Hlog Hsent Hai).
Qed.

End WholeRuns.

Lemma X7_empty_sentiment_result_aborts_witness :
  truthy (lit "rec.wav") = true /\
  Pipeline.sentiment_model speechless
    (strip (Pipeline.get_text (Pipeline.transcribe speechless (lit "rec.wav"))))
  = [] /\
  Pipeline.run_app ascii_lower (fun x => x) speechless (Some (lit "rec.wav")) []
  = (inr Pipeline.IndexError,
     [Pipeline.CallTranscribe (lit "rec.wav"); Pipeline.ShowText [];
      Pipeline.CallSentiment []]).
Proof.
  split; [reflexivity|]. split; [reflexivity|].
  exact (proj1 (X7_empty_sentiment_result_aborts ascii_lower N (fun x => x)
                  speechless (lit "rec.wav") eq_refl eq_refl)).
Defined.

Lemma X8_run_to_the_end_witness :
  truthy (lit "rec.wav") = true /\
  Pipeline.sentiment_model spoken
    (strip (Pipeline.get_text (Pipeline.transcribe spoken (lit "rec.wav"))))
  = [(lit "NEGATIVE", 98%N); (lit "POSITIVE", 2%N)] /\
  Pipeline.run_sentiment_analysis ascii_lower (fun x => x) spoken true
    (lit "rec.wav") []
  = (inl tt,
     [Pipeline.CallTranscribe (lit "rec.wav");
      Pipeline.ShowText (lit "The Battery is not working.");
      Pipeline.CallSentiment (lit "The Battery is not working.");
      Pipeline.ShowSentiment (lit "NEGATIVE") 98%N;
      Pipeline.ShowIntent (lit "Complaint");
      Pipeline.CallNer (lit "The Battery is not working.");
      Pipeline.ShowEntities []]).
Proof.
  split; [reflexivity|]. split; [reflexivity|].
  exact (proj2 (X8_run_to_the_end ascii_lower N (fun x => x) spoken
                  (lit "rec.wav") (lit "NEGATIVE") 98%N
                  [(lit "POSITIVE", 2%N)] eq_refl eq_refl)).
Defined.


Lemma X10_blank_transcript_witness :
  (forall s, isascii s = true -> ascii_lower s = ascii_lower s) /\
  truthy (lit "rec.wav") = true /\
  forallb isspace
    (Pipeline.get_text (Pipeline.transcribe silent (lit "rec.wav"))) = true /\
  exists q s r,
    Triples.triple q s r = Triples.default /\
    Pipeline.run_app ascii_lower (fun x => x) silent (Some (lit "rec.wav")) []
    = (inl tt,
       [Pipeline.CallTranscribe (lit "rec.wav"); Pipeline.ShowText [];
        Pipeline.CallSentiment [];
        Pipeline.ShowSentiment (lit "POSITIVE") 75%N;
        Pipeline.ShowIntent (lit "General");
        Pipeline.CallNer [];
        Pipeline.ShowEntities [];
        Pipeline.ShowAI q s r]).
Proof.
  split; [reflexivity|]. split; [reflexivity|]. split; [reflexivity|].
  exact (X10_blank_transcript ascii_lower N (fun x => x) silent
           (lit "rec.wav") (lit "POSITIVE") 75%N []
           (fun s _ => eq_refl) eq_refl eq_refl eq_refl).
Defined.

(** ** From the widgets to the analysis *)

Section MainRuns.

Variable lower : str -> str.
Variable Score : Type.
Variable round2 : Score -> Score.
Variable c : Pipeline.Collaborators Score.
Variable Recording : Type.
Variable env : Main.Environment Recording.

Local Abbreviation audio_input := (Main.audio_input (Score := Score) env).
Local Abbreviation app_main := (Main.app_main lower round2 c env).
Local Abbreviation duplicate_main := (Main.sentiment_analysis_main lower round2 c env).

(** The three outcomes of the audio widgets of [app.py]. *)
Lemma audio_input_cases (w : Main.Widgets) :
  (audio_input w = (None, []) /\
   ((Main.input_choice w = Main.RecordLive /\ Main.start_recording w = false)
    \/ (Main.input_choice w = Main.UploadAudioFile /\ Main.uploaded w = None)))
  \/
  (audio_input w
   = (Some (Main.tmp_name env),
      [Main.SdRec (Main.record_seconds w * 44100) 44100 1;
       Main.WavfileWrite (Main.tmp_name env) 44100
         (Main.sd_rec env (Main.record_seconds w * 44100) 44100 1);
       Main.Audio (Main.tmp_name env)]) /\
   Main.input_choice w = Main.RecordLive /\ Main.start_recording w = true)
  \/
  (exists data,
     audio_input w
     = (Some (Main.tmp_name env),
        [Main.TmpWrite (Main.tmp_name env) data;
         Main.Audio (Main.tmp_name env)]) /\
     Main.input_choice w = Main.UploadAudioFile /\
     Main.uploaded w = Some data).
Proof.
  destruct w as [choice secs button up]. unfold Main.audio_input. simpl.
  destruct choice, button; simpl; auto.
  - destruct up as [data|]; simpl; eauto 8.
  - destruct up as [data|]; simpl; eauto 8.
Qed.

Lemma app_main_log (w : Main.Widgets) :
  snd (app_main w)
  = snd (audio_input w)
    ++ map Main.Analysis
         (Pipeline.log_of
            (Pipeline.run_app lower round2 c (fst (audio_input w)))).
Proof.
  unfold Main.app_main, Pipeline.log_of.
  destruct (Main.audio_input env w) as [wav log]. simpl.
  destruct (Pipeline.run_app lower round2 c wav []). reflexivity.
Qed.

Lemma analysis_not_device (l : list (Pipeline.event Score))
  (e : Main.event Score Recording) :
  In e (map Main.Analysis l) -> exists a, e = Main.Analysis a /\ In a l.
Proof.
  intros H. apply in_map_iff in H. destruct H as (a & <- & Ha). eauto.
Qed.

Lemma transcribe_in_log (wav : option str) (p : str) :
  In (Pipeline.CallTranscribe p)
     (Pipeline.log_of (Pipeline.run_app lower round2 c wav))
  <-> wav = Some p /\ truthy p = true.
Proof.
  split.
  - intros H.
    assert (Hin : In (Pipeline.CallTranscribe p)
                     (Pipeline.calls
                        (Pipeline.log_of
                           (Pipeline.run_app lower round2 c wav))))
      by (unfold Pipeline.calls; apply filter_In; auto).
    destruct wav as [path|].
    + destruct (truthy path) eqn:Hpath.
      * pose proof (run_app_calls lower Score round2 c path Hpath) as Hc.
        cbv zeta in Hc. rewrite Hc in Hin.
        destruct Hin as [Hin|[Hin|Hin]].
        -- inversion Hin; subst. auto.
        -- discriminate Hin.
        -- destruct (Pipeline.sentiment_model c _); [destruct Hin|].
           destruct Hin as [Hin|[]]. discriminate Hin.
      * rewrite (run_app_idle lower Score round2 c (Some path) Hpath) in Hin.
        destruct Hin.
    + rewrite (run_app_idle lower Score round2 c None I) in Hin.
      destruct Hin.
  - intros [-> Hp].
    pose proof (run_app_calls lower Score round2 c p Hp) as Hc.
    cbv zeta in Hc.
    assert (Hin : In (Pipeline.CallTranscribe p)
                     (Pipeline.calls
                        (Pipeline.log_of
                           (Pipeline.run_app lower round2 c (Some p)))))
      by (rewrite Hc; left; reflexivity).
    unfold Pipeline.calls in Hin. apply filter_In in Hin. tauto.
Qed.

(** X11: [app.py] has no audio exactly when Record Live is chosen and the
    button is not pressed, or Upload is chosen and no file is in the
    uploader; such a run records nothing, calls no model and shows
    nothing.  A run of [sentiment analysis.py] without the button pressed
    does nothing either. *)
Theorem X11_no_audio_no_analysis (w : Main.Widgets) (seconds : Z) :
  (fst (audio_input w) = None
   <->
   (Main.input_choice w = Main.RecordLive /\ Main.start_recording w = false)
   \/ (Main.input_choice w = Main.UploadAudioFile /\ Main.uploaded w = None))
  /\ (fst (audio_input w) = None -> app_main w = (inl tt, []))
  /\ duplicate_main seconds false = (inl tt, []).
Proof.
  split; [|split; [|reflexivity]].
  - destruct (audio_input_cases w)
      as [[E H] | [[E [Hc Hb]] | (data & E & Hc & Hu)]]; rewrite E; simpl.
    + tauto.
    + split; [discriminate|]. intros [[_ H]|[H _]]; congruence.
    + split; [discriminate|]. intros [[H _]|[_ H]]; congruence.
  - destruct (audio_input_cases w)
      as [[E H] | [[E [Hc Hb]] | (data & E & Hc & Hu)]];
      unfold Main.app_main; rewrite E; simpl;
      [reflexivity | discriminate | discriminate].
Qed.

(** X12: the sound device is used only when it is asked for: [app.py]
    records exactly when Record Live is chosen and the button is pressed,
    [sentiment analysis.py] exactly when its button is pressed; the
    recording is mono, at 44100 Hz, and as many frames long as 44100 times
    the chosen number of seconds.  With Upload chosen nothing is
    recorded. *)
Theorem X12_records_only_on_request (w : Main.Widgets) (seconds : Z)
  (button : bool) (frames rate channels : Z) :
  (In (Main.SdRec frames rate channels) (snd (app_main w))
   <->
   Main.input_choice w = Main.RecordLive /\ Main.start_recording w = true /\
   frames = (Main.record_seconds w * 44100)%Z /\ rate = 44100%Z /\
   channels = 1%Z)
  /\
  (In (Main.SdRec frames rate channels) (snd (duplicate_main seconds button))
   <->
   button = true /\ frames = (seconds * 44100)%Z /\ rate = 44100%Z /\
   channels = 1%Z).
Proof.
  split.
  - rewrite app_main_log, in_app_iff.
    destruct (audio_input_cases w)
      as [[E H] | [[E [Hc Hb]] | (data & E & Hc & Hu)]]; rewrite E; simpl fst;
      simpl snd; split.
    + intros [[]|Hin]. apply analysis_not_device in Hin.
      destruct Hin as (a & Ha & _). discriminate Ha.
    + intros (Hc & Hb & _). destruct H as [[_ H]|[H _]]; congruence.
    + intros [[Hin|[Hin|[Hin|[]]]]|Hin]; try discriminate Hin.
      * inversion Hin; subst. auto.
      * apply analysis_not_device in Hin.
        destruct Hin as (a & Ha & _). discriminate Ha.
    + intros (_ & _ & -> & -> & ->). left. left. reflexivity.
    + intros [[Hin|[Hin|[]]]|Hin]; try discriminate Hin.
      apply analysis_not_device in Hin.
      destruct Hin as (a & Ha & _). discriminate Ha.
    + intros (Hc' & _). congruence.
  - unfold Main.sentiment_analysis_main, Main.record_audio, Main.fs_default.
    destruct button.
    + destruct (Pipeline.run_sentiment_analysis lower round2 c true
                  (Main.tmp_name env) []) as [r alog].
      simpl. split.
      * intros [Hin|[Hin|[Hin|Hin]]]; try discriminate Hin.
        -- inversion Hin; subst. auto.
        -- apply analysis_not_device in Hin.
           destruct Hin as (a & Ha & _). discriminate Ha.
      * intros (_ & -> & -> & ->). left. reflexivity.
    + simpl. split; [intros [] | intros [H _]; discriminate H].
Qed.


End MainRuns.

